(** * JusCash LLM verifier: a shallow embedding of [src/main.py] and
      [src/app_ui.py]

    [main.py] is written as a FastAPI application with two endpoints:
    [GET /health] answers a constant, [POST /verificar] validates a
    [ProcessoJudicial] record, asks Gemini for a decision over a fixed
    policy text, decodes the answer into a [DecisaoProcesso] and turns
    exceptions into HTTP statuses.  [app_ui.py] is a form that posts to it.

    The committed text of [main.py].  Lines 85-98 and 129-144 stand one
    level of indentation to the left of where the body of
    [verificar_processo_llm_gemini] would have them.  As committed, the
    [def] of line 71 ends at line 80, and the [try] of line 121 is followed
    at its own level by the [if] of line 130 and by no [except]: the file
    is not a Python module, loading it raises [SyntaxError] at line 130,
    and no application object is built.  [Committed] models this: the
    logical lines of the file with their indentation, the block rules
    Python applies to them, and the program the file is, which answers no
    request.

    Beside it are embedded the parts of the text that are well formed on
    their own, as they are written: the two schemas, the policy, the
    checks of lines 130-140 in their order, the endpoint functions and the
    route declarations.  [verificar_processo_llm_gemini] is the function
    that lines 71-144 spell once the displaced lines are indented under it
    (the nesting that the comment of line 83 names).  It is what the text
    would be with that repair, not what the file is; it serves to say what
    the displaced statements do, the timeout of line 89 and the test of
    line 135.

    What is not code of the repository is kept apart:
    - the JSON readers and writers, pydantic's rendering of a validation
      error and its parsing of a numeric string are the fields of the class
      [Runtime];
    - the Gemini SDK (client construction and [generate_content]) is the
      record [World], over which every statement quantifies.
    Python exceptions that do not derive from [Exception] (interpreter
    shutdown, task cancellation) are outside the model. *)

From Stdlib Require Import String Ascii List ZArith Bool Lia DecimalString.
From Stdlib Require Import PrimFloat SpecFloat FloatOps.
Import ListNotations.

Set Warnings "-register-all".

Local Open Scope string_scope.
Local Open Scope Z_scope.

(** ** Python values that cross the HTTP and the SDK boundary *)

(** A decoded JSON document, as [json.loads] builds it: [int] and [float]
    stay apart, an object is a [dict] kept in insertion order. *)
Inductive json : Type :=
| JNull
| JBool (b : bool)
| JInt (z : Z)
| JFloat (f : float)
| JString (s : string)
| JArray (items : list json)
| JObject (fields : list (string * json)).

(** [d.get(key)] on a dict. *)
Fixpoint dict_get (key : string) (d : list (string * json)) : option json :=
  match d with
  | [] => None
  | (k, v) :: rest => if String.eqb k key then Some v else dict_get key rest
  end.

(** [float(z)] for a Python [int]: round to nearest even; Python raises
    [OverflowError] where binary64 has no finite value. *)
Definition float_of_int (z : Z) : option float :=
  let f := SF2Prim (binary_normalize prec emax z 0 false) in
  if is_infinity f then None else Some f.

(** Whether a finite float has no fractional part. *)
Definition float_is_integer (f : float) : bool :=
  match Prim2SF f with
  | S754_zero _ => true
  | S754_finite _ m e =>
      if 0 <=? e then true else Z.eqb (Z.pos m mod 2 ^ (- e)) 0
  | _ => false
  end.

(** Whether a float is a number: neither an infinity nor a NaN. *)
Definition float_is_finite (f : float) : bool :=
  negb (orb (is_nan f) (is_infinity f)).

(** Whether [json.dumps(_, allow_nan=False)] renders a document: it refuses
    the floats that are not numbers, wherever they stand. *)
Fixpoint json_finite (v : json) : bool :=
  match v with
  | JFloat f => float_is_finite f
  | JArray items => forallb json_finite items
  | JObject fields => forallb (fun kv => json_finite (snd kv)) fields
  | _ => true
  end.

(** [s.endswith(suffix)] *)
Definition str_endswith (s suffix : string) : bool :=
  let n := String.length s in
  let m := String.length suffix in
  andb (Nat.leb m n) (String.eqb (String.substring (n - m) m s) suffix).

(** ** Exceptions *)

(** One entry of a pydantic [ValidationError] (what [e.errors()] lists,
    without the documentation link). *)
Inductive error_type : Type :=
| missing
| string_type
| float_type
| float_parsing
| bool_type
| bool_parsing
| list_type
| model_type
| model_attributes_type
| json_invalid.

Inductive loc_item : Type :=
| LocKey (k : string)
| LocIndex (i : Z).

Record ErrorDetails : Type := mkError {
  err_type : error_type;
  err_loc : list loc_item;
  err_input : json;
  err_ctx : list (string * json)
}.

Definition error_type_name (t : error_type) : string :=
  match t with
  | missing => "missing"
  | string_type => "string_type"
  | float_type => "float_type"
  | float_parsing => "float_parsing"
  | bool_type => "bool_type"
  | bool_parsing => "bool_parsing"
  | list_type => "list_type"
  | model_type => "model_type"
  | model_attributes_type => "model_attributes_type"
  | json_invalid => "json_invalid"
  end.

Definition error_msg (t : error_type) : string :=
  match t with
  | missing => "Field required"
  | string_type => "Input should be a valid string"
  | float_type => "Input should be a valid number"
  | float_parsing => "Input should be a valid number, unable to parse string as a number"
  | bool_type => "Input should be a valid boolean"
  | bool_parsing => "Input should be a valid boolean, unable to interpret input"
  | list_type => "Input should be a valid list"
  | model_type => "Input should be an object"
  | model_attributes_type => "Input should be a valid dictionary or object to extract fields from"
  | json_invalid => "JSON decode error"
  end.

(** The built-in class an exception of a library derives from, as far as
    the [except] clauses of the program tell them apart. *)
Inductive builtin_base : Type :=
| DerivesConnectionError
| DerivesRuntimeError
| DerivesException.

(** The exceptions the program raises or receives.  [SdkError] stands for
    any exception class of the Gemini SDK or of the network stack. *)
Inductive exception : Type :=
| ConnectionError (msg : string)
| RuntimeError (msg : string)
| AttributeError (msg : string)
| ValidationError (title : string) (errors : list ErrorDetails)
| HTTPException (status_code : Z) (detail : string)
| SdkError (cls : string) (base : builtin_base) (msg : string).

(** ** The libraries the program runs on *)

Class Runtime : Type := {
  (** [json.loads] on a request body (Starlette's [request.json()]); a
      [JSONDecodeError] carries its position and message *)
  json_loads : string -> (Z * string) + json;
  (** the JSON reader behind [model_validate_json] *)
  from_json : string -> option json;
  (** [json.dumps(_, indent=2)] *)
  json_dumps_indent2 : json -> string;
  (** pydantic's reading of a string as a float *)
  str_as_float : string -> option float;
  (** [str(e)] of a pydantic [ValidationError]: title and entries *)
  str_ValidationError : string -> list ErrorDetails -> string;
  (** Python's rendering of an integer, for [str(HTTPException)] *)
  str_int : Z -> string
}.

(** ** 1. Data contracts (pydantic schemas) *)

(** Output contract: three required fields, each typed only by [str] or
    [List[str]]; the [Field] descriptions are documentation for the model. *)
Record DecisaoProcesso : Type := mkDecisaoProcesso {
  decision : string;
  rationale : string;
  citacoes : list string
}.

(** Input contract: seven required fields. *)
Record ProcessoJudicial : Type := mkProcessoJudicial {
  numeroProcesso : string;
  esfera : string;
  valorCondenacao : float;
  documentos_faltando : bool;
  transitou_julgado : bool;
  substabelecimento_sem_reserva : bool;
  obito_autor : bool
}.

(** *** Validation, as pydantic runs it

    The field validators follow pydantic 2 in its default (lax) mode: the
    request body is validated as the Python object that [json.loads] built,
    the answer of the service as JSON text. *)

(** A validator returns the value or the list of its errors, each located
    relative to the value under validation. *)
Definition validated (T : Type) : Type := (list ErrorDetails + T)%type.

Definition invalid {T : Type} (t : error_type) (input : json) : validated T :=
  inl [mkError t [] input []].

Definition relocate (prefix : list loc_item) (e : ErrorDetails) : ErrorDetails :=
  mkError (err_type e) (prefix ++ err_loc e)%list (err_input e) (err_ctx e).

(** Errors of all fields are collected, in field order. *)
Definition ap {A B : Type} (f : validated (A -> B)) (x : validated A) : validated B :=
  match f, x with
  | inr g, inr a => inr (g a)
  | inl e1, inl e2 => inl (e1 ++ e2)%list
  | inl e1, inr _ => inl e1
  | inr _, inl e2 => inl e2
  end.

Notation "f <*> x" := (ap f x) (at level 50, left associativity).

(** A required field of a model. *)
Definition field {T : Type} (name : string) (validate : json -> validated T)
    (d : list (string * json)) : validated T :=
  match dict_get name d with
  | None => inl [mkError missing [LocKey name] (JObject d) []]
  | Some v =>
      match validate v with
      | inl errs => inl (map (relocate [LocKey name]) errs)
      | inr x => inr x
      end
  end.

Definition ascii_lower (c : ascii) : ascii :=
  let n := nat_of_ascii c in
  if andb (Nat.leb 65 n) (Nat.leb n 90) then ascii_of_nat (n + 32) else c.

Fixpoint str_lower (s : string) : string :=
  match s with
  | EmptyString => EmptyString
  | String c rest => String (ascii_lower c) (str_lower rest)
  end.

Definition str_in (s : string) (l : list string) : bool :=
  existsb (String.eqb s) l.

(** pydantic's reading of a string as a boolean. *)
Definition str_as_bool (s : string) : option bool :=
  let l := str_lower s in
  if orb (String.eqb s "0") (str_in l ["f"; "n"; "no"; "off"; "false"]) then Some false
  else if orb (String.eqb s "1") (str_in l ["t"; "y"; "on"; "yes"; "true"]) then Some true
  else None.

Section Validators.
Context `{Runtime}.

(** [str]: only a string is a string, in both input modes. *)
Definition validate_str (v : json) : validated string :=
  match v with
  | JString s => inr s
  | _ => invalid string_type v
  end.

(** [float] on Python input, lax mode. *)
Definition validate_float (v : json) : validated float :=
  match v with
  | JFloat f => inr f
  | JString s =>
      match str_as_float s with
      | Some f => inr f
      | None => invalid float_parsing v
      end
  | JInt z =>
      match float_of_int z with
      | Some f => inr f
      | None => invalid float_type v
      end
  | JBool b => inr (if b then 1%float else 0%float)
  | _ => invalid float_type v
  end.

(** [bool] on Python input, lax mode.  An integer is read through a 64-bit
    conversion: outside that range it is not of a boolean type. *)
Definition validate_bool (v : json) : validated bool :=
  match v with
  | JBool b => inr b
  | JString s =>
      match str_as_bool s with
      | Some b => inr b
      | None => invalid bool_parsing v
      end
  | JInt z =>
      if z =? 0 then inr false
      else if z =? 1 then inr true
      else if andb (- 2 ^ 63 <=? z) (z <? 2 ^ 63) then invalid bool_parsing v
      else invalid bool_type v
  | JFloat f =>
      if float_is_integer f then
        if PrimFloat.eqb f 0%float then inr false
        else if PrimFloat.eqb f 1%float then inr true
        else invalid bool_parsing v
      else invalid bool_type v
  | _ => invalid bool_type v
  end.

(** [List[str]] on JSON input: an array, every item a string; the errors
    of the items carry their index. *)
Fixpoint validate_str_items (i : Z) (items : list json) : validated (list string) :=
  match items with
  | [] => inr []
  | v :: rest =>
      inr cons
        <*> match validate_str v with
            | inl errs => inl (map (relocate [LocIndex i]) errs)
            | inr s => inr s
            end
        <*> validate_str_items (i + 1) rest
  end.

Definition validate_list_str (v : json) : validated (list string) :=
  match v with
  | JArray items => validate_str_items 0 items
  | _ => invalid list_type v
  end.

(** The fields of [ProcessoJudicial], in declaration order.  Keys of the
    input that name no field are not looked at. *)
Definition ProcessoJudicial_fields (d : list (string * json)) : validated ProcessoJudicial :=
  inr mkProcessoJudicial
    <*> field "numeroProcesso" validate_str d
    <*> field "esfera" validate_str d
    <*> field "valorCondenacao" validate_float d
    <*> field "documentos_faltando" validate_bool d
    <*> field "transitou_julgado" validate_bool d
    <*> field "substabelecimento_sem_reserva" validate_bool d
    <*> field "obito_autor" validate_bool d.

(** Validation of a request body against [ProcessoJudicial]. *)
Definition ProcessoJudicial_validate (v : json) : validated ProcessoJudicial :=
  match v with
  | JObject d => ProcessoJudicial_fields d
  | _ => invalid model_attributes_type v
  end.

Definition DecisaoProcesso_fields (d : list (string * json)) : validated DecisaoProcesso :=
  inr mkDecisaoProcesso
    <*> field "decision" validate_str d
    <*> field "rationale" validate_str d
    <*> field "citacoes" validate_list_str d.

(** [DecisaoProcesso.model_validate_json(text)]. *)
Definition DecisaoProcesso_model_validate_json (text : string)
    : exception + DecisaoProcesso :=
  let checked :=
    match from_json text with
    | None => invalid json_invalid (JString text)
    | Some (JObject d) => DecisaoProcesso_fields d
    | Some v => invalid model_type v
    end in
  match checked with
  | inl errs => inl (ValidationError "DecisaoProcesso" errs)
  | inr dec => inr dec
  end.

(** [processo.model_dump()]. *)
Definition ProcessoJudicial_model_dump (p : ProcessoJudicial) : json :=
  JObject
    [("numeroProcesso", JString (numeroProcesso p));
     ("esfera", JString (esfera p));
     ("valorCondenacao", JFloat (valorCondenacao p));
     ("documentos_faltando", JBool (documentos_faltando p));
     ("transitou_julgado", JBool (transitou_julgado p));
     ("substabelecimento_sem_reserva", JBool (substabelecimento_sem_reserva p));
     ("obito_autor", JBool (obito_autor p))].

(** The decision as the response model serialises it. *)
Definition DecisaoProcesso_model_dump (d : DecisaoProcesso) : json :=
  JObject
    [("decision", JString (decision d));
     ("rationale", JString (rationale d));
     ("citacoes", JArray (map JString (citacoes d)))].

(** [str(e)]. *)
Definition str_exception (e : exception) : string :=
  match e with
  | ConnectionError msg => msg
  | RuntimeError msg => msg
  | AttributeError msg => msg
  | ValidationError title errs => str_ValidationError title errs
  | HTTPException code detail => str_int code ++ ": " ++ detail
  | SdkError _ _ msg => msg
  end.

End Validators.

(** ** The Gemini SDK, as the program sees it *)

Record HttpOptions : Type := mkHttpOptions {
  timeout : option Z
}.

Record Client : Type := mkClient {
  api_key : string;
  http_options : HttpOptions
}.

Record GenerateContentConfig : Type := mkGenerateContentConfig {
  response_mime_type : string;
  response_schema : string
}.

(** A member of an SDK enumeration: its value, an integer or a string
    according to the SDK generation, and its name. *)
Inductive enum_value : Type :=
| EInt (z : Z)
| EStr (s : string).

Record enum_member : Type := mkEnumMember {
  member_value : enum_value;
  member_name : string
}.

(** Attributes the SDK declares optional may hold [None]. *)
Record PromptFeedback : Type := mkPromptFeedback {
  block_reason : option enum_member
}.

Record GenerateContentResponse : Type := mkResponse {
  text : option string;
  prompt_feedback : option PromptFeedback
}.

(** The world outside the process: building a client may raise, and a call
    to [generate_content] raises or returns a response. *)
Record World : Type := mkWorld {
  genai_Client : string -> HttpOptions -> option exception;
  generate_content :
    Client -> string -> list string -> GenerateContentConfig ->
    exception + GenerateContentResponse
}.

(** ** Effects: exceptions and a log of the calls made *)

(** The log records, in order, each entry into the evaluator, each
    construction of a client and each call to the service, with their
    arguments.  A computation that leaves the log as it found it has called
    none of them. *)
Inductive event : Type :=
| CallEvaluator (processo : ProcessoJudicial)
| CallClient (key : string) (options : HttpOptions)
| CallGenerateContent (client : Client) (model : string)
    (contents : list string) (config : GenerateContentConfig).

Inductive outcome (A : Type) : Type :=
| Return (a : A)
| Raise (e : exception).

Arguments Return {A} a.
Arguments Raise {A} e.

Definition Py (A : Type) : Type := list event -> outcome A * list event.

Definition ret {A : Type} (a : A) : Py A := fun log => (Return a, log).

Definition raise {A : Type} (e : exception) : Py A := fun log => (Raise e, log).

Definition bind {A B : Type} (m : Py A) (k : A -> Py B) : Py B :=
  fun log =>
    match m log with
    | (Return a, log') => k a log'
    | (Raise e, log') => (Raise e, log')
    end.

Definition emit (ev : event) : Py unit := fun log => (Return tt, (log ++ [ev])%list).

(** [try: m  except Exception as e: handler e] *)
Definition try_except {A : Type} (m : Py A) (handler : exception -> Py A) : Py A :=
  fun log =>
    match m log with
    | (Return a, log') => (Return a, log')
    | (Raise e, log') => handler e log'
    end.

Definition lift {A : Type} (r : exception + A) : Py A :=
  match r with
  | inl e => raise e
  | inr a => ret a
  end.

Notation "x <- m ;; k" := (bind m (fun x => k))
  (at level 61, m at next level, right associativity).
Notation "m ;;; k" := (bind m (fun _ => k))
  (at level 61, right associativity).

(** Running a computation from an empty log. *)
Definition run {A : Type} (m : Py A) : outcome A * list event := m [].

(** Python truthiness of an optional string: [None] and [""] are false;
    a true one is handed back. *)
Definition truthy (s : option string) : option string :=
  match s with
  | Some (String c rest) => Some (String c rest)
  | _ => None
  end.

(** [x != 0] on an optional enumeration member: [None], and any member that
    is not an integer, differ from [0]. *)
Definition differs_from_zero (x : option enum_member) : bool :=
  match x with
  | Some m =>
      match member_value m with
      | EInt z => negb (z =? 0)
      | EStr _ => true
      end
  | None => true
  end.

Definition newline : string := String (ascii_of_nat 10) EmptyString.

(** The lines of a text, joined by line feeds. *)
Fixpoint unlines (l : list string) : string :=
  match l with
  | [] => ""
  | [s] => s
  | s :: rest => s ++ newline ++ unlines rest
  end.

(** ** 2. Policy and LLM *)

(** [os.getenv("GEMINI_API_KEY")], read once when the module is loaded, is
    an argument of the functions below.  Strings are the UTF-8 bytes of the
    Python text. *)

Definition POLITICA_JUSCASH : string :=
  newline ++ unlines
    ["Regra-base (elegibilidade)";
     "POL-1: Só compramos crédito de processos transitados em julgado e em fase de execução.";
     "POL-2: Exigir valor de condenação informado.";
     "";
     "Quando NÃO compramos o crédito (Rejeitar - rejected)";
     "POL-3: Valor de condenação < R$ 1.000,00 não compra (REJEITAR).";
     "POL-4: Condenações na esfera trabalhista não compra (REJEITAR).";
     "POL-5: Óbito do autor sem habilitação no inventário não compra (REJEITAR).";
     "POL-6: Substabelecimento sem reserva de poderes não compra (REJEITAR).";
     "";
     "Saídas e qualidade (Incompleto - incomplete)";
     "POL-8: Se faltar documento essencial (ex.: trânsito em julgado não comprovado) INCOMPLETE.";
     ""].

Section Evaluator.
Context `{Runtime}.

(** Step 3: the prompt. *)
Definition prompt (processo : ProcessoJudicial) : string :=
  newline ++ unlines
    ["    Você é o Analista de Machine Learning da JusCash. Aplique as regras da Política JusCash";
     "    abaixo nos dados do processo e retorne a sua análise no formato JSON exigido.";
     "";
     "    # Regras da Política JusCash:";
     "    " ++ POLITICA_JUSCASH;
     "";
     "    # Dados do Processo:";
     "    " ++ json_dumps_indent2 (ProcessoJudicial_model_dump processo);
     "";
     "    Determine a decisão ('approved', 'rejected', 'incomplete') e cite as regras (POL-X) que a justificam.";
     "    "].

(** Step 2: [types.HttpOptions(timeout=300)]. *)
Definition the_http_options : HttpOptions := mkHttpOptions (Some 300).

(** Step 4: structured output is requested from the service. *)
Definition config : GenerateContentConfig :=
  mkGenerateContentConfig "application/json" "DecisaoProcesso".

Definition new_client (w : World) (key : string) (options : HttpOptions) : Py Client :=
  emit (CallClient key options) ;;;
  match genai_Client w key options with
  | Some e => raise e
  | None => ret (mkClient key options)
  end.

Definition call_generate_content (w : World) (client : Client) (model : string)
    (contents : list string) (cfg : GenerateContentConfig) : Py GenerateContentResponse :=
  emit (CallGenerateContent client model contents cfg) ;;;
  lift (generate_content w client model contents cfg).

(** [response.prompt_feedback.block_reason] *)
Definition get_block_reason (response : GenerateContentResponse) : Py (option enum_member) :=
  match prompt_feedback response with
  | None => raise (AttributeError "'NoneType' object has no attribute 'block_reason'")
  | Some feedback => ret (block_reason feedback)
  end.

(** [_.name] on the block reason *)
Definition get_name (reason : option enum_member) : Py string :=
  match reason with
  | None => raise (AttributeError "'NoneType' object has no attribute 'name'")
  | Some m => ret (member_name m)
  end.

Definition msg_no_key : string :=
  "Chave GEMINI_API_KEY não configurada no ambiente.".

Definition msg_empty : string :=
  "O LLM Gemini não retornou nenhum texto (Resposta vazia). Verifique a chave e limites de uso.".

Definition msg_blocked (reason_name : string) : string :=
  "O Prompt foi bloqueado por motivo de segurança: " ++ reason_name.

Definition msg_call (cause : string) : string :=
  "Erro na chamada do modelo Gemini: " ++ cause.

(** Steps 6 to 8, lines 130-140: what is done with a response.  The three
    statements are taken in the order and with the relative nesting of the
    committed text. *)
Definition check_response (response : GenerateContentResponse) : Py DecisaoProcesso :=
  match truthy (text response) with
  | None => raise (RuntimeError msg_empty)
  | Some response_text =>
      reason <- get_block_reason response ;;
      if differs_from_zero reason then
        reason' <- get_block_reason response ;;
        reason_name <- get_name reason' ;;
        raise (RuntimeError (msg_blocked reason_name))
      else lift (DecisaoProcesso_model_validate_json response_text)
  end.

(** Steps 5 to 8, the body of the [try]. *)
Definition call_and_decode (w : World) (client : Client) (processo : ProcessoJudicial)
    : Py DecisaoProcesso :=
  response <- call_generate_content w client "gemini-2.5-flash" [prompt processo] config ;;
  check_response response.

(** The function that lines 71-144 spell once lines 85-98 and 129-144 are
    indented under the [def] and lines 130-140 under the [try] of line 121.
    The committed file is not this function, see [Committed]. *)
Definition verificar_processo_llm_gemini (GEMINI_API_KEY : option string) (w : World)
    (processo : ProcessoJudicial) : Py DecisaoProcesso :=
  emit (CallEvaluator processo) ;;;
  match truthy GEMINI_API_KEY with
  | None => raise (ConnectionError msg_no_key)
  | Some key =>
      client <- try_except (new_client w key the_http_options)
                  (fun e => raise (ConnectionError
                     ("Erro ao inicializar o cliente Gemini: " ++ str_exception e))) ;;
      try_except (call_and_decode w client processo)
        (fun e => raise (RuntimeError (msg_call (str_exception e))))
  end.

(** *** Names for what an invocation does *)

(** The client and the call of an invocation under key [k]. *)
Definition the_client (k : string) : Client := mkClient k the_http_options.

Definition the_call (k : string) (p : ProcessoJudicial) : event :=
  CallGenerateContent (the_client k) "gemini-2.5-flash" [prompt p] config.

(** What the [except] clause of step 5 makes of the result of a block. *)
Definition wrapped (r : outcome DecisaoProcesso) : outcome DecisaoProcesso :=
  match r with
  | Return d => Return d
  | Raise e => Raise (RuntimeError (msg_call (str_exception e)))
  end.

End Evaluator.

(** ** 3. API endpoints *)

Inductive Body : Type :=
| JsonBody (j : json)
| TextBody (s : string)
| PageBody (page : string)
| EmptyBody.

Record Response : Type := mkResponse' {
  status : Z;
  content : Body
}.

(** A request: the content type is the parsed header, main type and
    subtype in lower case, or [None] when the header is absent. *)
Record Request : Type := mkRequest {
  method : string;
  path : string;
  content_type : option (string * string);
  body : string
}.

Section Api.
Context `{Runtime}.

(** [GET /health] *)
Definition health_check : json :=
  JObject [("status", JString "ok"); ("message", JString "API operacional")].

(** Which [except] clause of the handler takes an exception. *)
Definition isinstance_ConnectionError (e : exception) : bool :=
  match e with
  | ConnectionError _ => true
  | SdkError _ DerivesConnectionError _ => true
  | _ => false
  end.

Definition isinstance_RuntimeError (e : exception) : bool :=
  match e with
  | RuntimeError _ => true
  | SdkError _ DerivesRuntimeError _ => true
  | _ => false
  end.

(** The three [except] clauses of the endpoint function, lines 175-189:
    the [HTTPException] raised for an exception of the evaluator. *)
Definition translate (e : exception) : exception :=
  if isinstance_ConnectionError e then
    HTTPException 500 ("Erro de Configuração: " ++ str_exception e)
  else if isinstance_RuntimeError e then
    HTTPException 503 ("Erro no Serviço LLM: " ++ str_exception e)
  else
    HTTPException 500 ("Erro Interno Inesperado: " ++ str_exception e).

(** [POST /verificar], the endpoint function. *)
Definition verificar_processo (GEMINI_API_KEY : option string) (w : World)
    (processo : ProcessoJudicial) : Py DecisaoProcesso :=
  try_except (verificar_processo_llm_gemini GEMINI_API_KEY w processo)
    (fun e => raise (translate e)).

(** *** What FastAPI does around the endpoint functions *)

Definition loc_to_json (l : loc_item) : json :=
  match l with
  | LocKey k => JString k
  | LocIndex i => JInt i
  end.

Definition error_to_json (e : ErrorDetails) : json :=
  JObject
    ([("type", JString (error_type_name (err_type e)));
      ("loc", JArray (map loc_to_json (err_loc e)));
      ("msg", JString (error_msg (err_type e)));
      ("input", err_input e)]
     ++ match err_ctx e with
        | [] => []
        | ctx => [("ctx", JObject ctx)]
        end)%list.

(** The answer to a request whose body fails validation: 422 with the
    errors, inputs included, as the detail.  The response is rendered with
    [allow_nan=False]; when an echoed input holds an infinity or a NaN the
    rendering raises and the request is answered by the server's plain
    500. *)
Definition unprocessable (errs : list ErrorDetails) : Response :=
  let detail := JArray (map error_to_json errs) in
  if json_finite detail then mkResponse' 422 (JsonBody (JObject [("detail", detail)]))
  else mkResponse' 500 (TextBody "Internal Server Error").

Definition http_error (code : Z) (detail : string) : Response :=
  mkResponse' code (JsonBody (JObject [("detail", JString detail)])).

(** Whether FastAPI reads the body as JSON: with no content type, or with
    [application/json] or [application/...+json]. *)
Definition is_json_content_type (ct : option (string * string)) : bool :=
  match ct with
  | None => true
  | Some (maintype, subtype) =>
      andb (String.eqb maintype "application")
           (orb (String.eqb subtype "json") (str_endswith subtype "+json"))
  end.

(** Reading the body parameter [processo: ProcessoJudicial] of a request.
    An empty body, and a body that reads as JSON [null], is a missing
    body; under another content type the body stays the raw text, which is
    no object to take fields from. *)
Definition read_body (ct : option (string * string)) (raw : string)
    : validated ProcessoJudicial :=
  match raw with
  | EmptyString => inl [mkError missing [LocKey "body"] JNull []]
  | _ =>
      if is_json_content_type ct then
        match json_loads raw with
        | inl (pos, msg) =>
            inl [mkError json_invalid [LocKey "body"; LocIndex pos] (JObject [])
                   [("error", JString msg)]]
        | inr JNull => inl [mkError missing [LocKey "body"] JNull []]
        | inr v =>
            match ProcessoJudicial_validate v with
            | inl errs => inl (map (relocate [LocKey "body"]) errs)
            | inr processo => inr processo
            end
        end
      else inl [mkError model_attributes_type [LocKey "body"] (JString raw) []]
  end.

(** The response built from what an endpoint function did. *)
Definition respond (r : outcome DecisaoProcesso) : Response :=
  match r with
  | Return decisao => mkResponse' 200 (JsonBody (DecisaoProcesso_model_dump decisao))
  | Raise (HTTPException code detail) => http_error code detail
  | Raise _ => mkResponse' 500 (TextBody "Internal Server Error")
  end.

(** What FastAPI does with a request routed to an endpoint function that
    takes a [ProcessoJudicial] body: the function is entered only with a
    record that validated. *)
Definition post_body (endpoint_function : ProcessoJudicial -> Py DecisaoProcesso)
    (req : Request) : Py Response :=
  match read_body (content_type req) (body req) with
  | inl errs => ret (unprocessable errs)
  | inr processo =>
      fun log =>
        let (r, log') := endpoint_function processo log in
        (Return (respond r), log')
  end.

Definition post_verificar (GEMINI_API_KEY : option string) (w : World) (req : Request)
    : Py Response :=
  post_body (verificar_processo GEMINI_API_KEY w) req.

(** *** The route table *)

Inductive endpoint : Type :=
| Framework (page : string)
| Health
| Verificar.

Record Route : Type := mkRoute {
  route_path : string;
  route_methods : list string;
  route_endpoint : endpoint
}.

(** FastAPI registers its documentation pages when the application object
    is built; the two decorators add the routes of the program. *)
Definition routes : list Route :=
  [mkRoute "/openapi.json" ["GET"; "HEAD"] (Framework "openapi");
   mkRoute "/docs" ["GET"; "HEAD"] (Framework "swagger");
   mkRoute "/docs/oauth2-redirect" ["GET"; "HEAD"] (Framework "oauth2-redirect");
   mkRoute "/redoc" ["GET"; "HEAD"] (Framework "redoc");
   mkRoute "/health" ["GET"] Health;
   mkRoute "/verificar" ["POST"] Verificar].

Inductive Match : Type :=
| NONE
| PARTIAL
| FULL.

Definition matches (r : Route) (m p : string) : Match :=
  if String.eqb (route_path r) p then
    if str_in m (route_methods r) then FULL else PARTIAL
  else NONE.

Fixpoint first_full (rs : list Route) (m p : string) : option Route :=
  match rs with
  | [] => None
  | r :: rest =>
      match matches r m p with
      | FULL => Some r
      | _ => first_full rest m p
      end
  end.

Definition any_match (rs : list Route) (m p : string) : bool :=
  existsb (fun r => match matches r m p with NONE => false | _ => true end) rs.

(** [path.rstrip("/")] *)
Fixpoint rstrip_slash (p : string) : string :=
  match p with
  | EmptyString => EmptyString
  | String c rest =>
      match rstrip_slash rest with
      | EmptyString => if Ascii.eqb c "/" then EmptyString else String c EmptyString
      | rest' => String c rest'
      end
  end.

Fixpoint endswith_slash (p : string) : bool :=
  match p with
  | EmptyString => false
  | String c EmptyString => Ascii.eqb c "/"
  | String _ rest => endswith_slash rest
  end.

Definition redirect_path (p : string) : string :=
  if endswith_slash p then rstrip_slash p else p ++ "/".

Definition call_endpoint (GEMINI_API_KEY : option string) (w : World) (e : endpoint)
    (req : Request) : Py Response :=
  match e with
  | Framework page => ret (mkResponse' 200 (PageBody page))
  | Health => ret (mkResponse' 200 (JsonBody health_check))
  | Verificar => post_verificar GEMINI_API_KEY w req
  end.

(** The application: the first route that matches path and method
    answers; a path known under another method is refused; a path known
    up to a trailing slash is redirected; anything else is not found. *)
Definition app (GEMINI_API_KEY : option string) (w : World) (req : Request) : Py Response :=
  match first_full routes (method req) (path req) with
  | Some r => call_endpoint GEMINI_API_KEY w (route_endpoint r) req
  | None =>
      if any_match routes (method req) (path req) then
        ret (http_error 405 "Method Not Allowed")
      else if andb (negb (String.eqb (path req) "/"))
                   (any_match routes (method req) (redirect_path (path req))) then
        ret (mkResponse' 307 EmptyBody)
      else ret (http_error 404 "Not Found")
  end.

End Api.

(** ** The file as committed *)

(** The block structure of [main.py]: its logical lines (a statement that
    runs over several lines counts once, at its first line; comments and
    blank lines do not count), each with its line number, the column it
    starts at, and what it starts with. *)
Module Committed.

Inductive head : Type :=
| simple
| decorator
| class_
| def_
| if_
| try_
| except_
| raise_
| return_.

Record line : Type := mkLine {
  number : nat;
  indent : nat;
  kind : head
}.

Definition main_py : list line :=
  [mkLine 1 0 simple; mkLine 2 0 simple; mkLine 3 0 simple; mkLine 6 0 simple;
   mkLine 7 0 simple; mkLine 10 0 simple; mkLine 11 0 simple; mkLine 12 0 simple;
   mkLine 20 0 class_; mkLine 21 4 simple; mkLine 23 4 simple; mkLine 27 4 simple;
   mkLine 31 4 simple;
   mkLine 37 0 class_; mkLine 38 4 simple; mkLine 40 4 simple; mkLine 41 4 simple;
   mkLine 42 4 simple; mkLine 43 4 simple; mkLine 44 4 simple; mkLine 45 4 simple;
   mkLine 46 4 simple;
   mkLine 54 0 simple; mkLine 56 0 simple;
   mkLine 71 0 def_; mkLine 72 4 simple; mkLine 76 4 simple; mkLine 79 4 if_;
   mkLine 80 8 raise_;
   mkLine 86 0 try_; mkLine 88 4 simple; mkLine 93 4 simple;
   mkLine 97 0 except_; mkLine 98 4 raise_;
   mkLine 101 4 simple; mkLine 115 4 simple;
   mkLine 121 4 try_; mkLine 122 8 simple;
   mkLine 130 4 if_; mkLine 132 8 raise_;
   mkLine 135 4 if_; mkLine 137 8 raise_;
   mkLine 140 4 return_;
   mkLine 142 0 except_; mkLine 144 4 raise_;
   mkLine 151 0 simple;
   mkLine 158 0 decorator; mkLine 159 0 def_; mkLine 160 4 simple; mkLine 161 4 return_;
   mkLine 164 0 decorator; mkLine 165 0 def_; mkLine 166 4 simple;
   mkLine 170 4 try_; mkLine 172 8 simple; mkLine 173 8 return_;
   mkLine 175 4 except_; mkLine 177 8 raise_;
   mkLine 180 4 except_; mkLine 182 8 raise_;
   mkLine 185 4 except_; mkLine 187 8 raise_;
   mkLine 198 0 simple].

(** *** The block rules of Python, for the statements the file uses *)

Inductive load_error : Type :=
| SyntaxError (lineno : nat)
| IndentationError (lineno : nat).

(** An open suite: the column and kind of its header, the column of its
    statements. *)
Record suite : Type := mkSuite {
  header_indent : nat;
  header : head;
  body_indent : nat
}.

Definition opens_suite (h : head) : bool :=
  match h with
  | class_ | def_ | if_ | try_ | except_ => true
  | _ => false
  end.

Definition is_except (h : head) : bool :=
  match h with
  | except_ => true
  | _ => false
  end.

(** A line to the left of the open suite closes it, and the suites around
    it, down to the one at its column.  The suite of a [try] can only be
    closed by an [except] at the column of the [try].  The result tells
    whether the line stands where a clause of a [try] statement may. *)
Fixpoint close (stack : list suite) (l : line) (after_try : bool)
    : load_error + (list suite * bool) :=
  match stack with
  | [] =>
      if Nat.eqb (indent l) 0 then inr ([], after_try)
      else inl (IndentationError (number l))
  | s :: rest =>
      if Nat.eqb (body_indent s) (indent l) then inr (stack, after_try)
      else if Nat.ltb (body_indent s) (indent l) then inl (IndentationError (number l))
      else
        match header s with
        | try_ =>
            if andb (Nat.eqb (header_indent s) (indent l)) (is_except (kind l))
            then close rest l true
            else inl (SyntaxError (number l))
        | except_ => close rest l (Nat.eqb (header_indent s) (indent l))
        | _ => close rest l false
        end
  end.

Definition pending_of (l : line) : option (nat * head) :=
  if opens_suite (kind l) then Some (indent l, kind l) else None.

(** One line: under a header it must be indented and opens the suite;
    otherwise it continues a suite or closes some; an [except] must
    follow the suite of a [try] or of another [except]. *)
Definition step (state : list suite * option (nat * head)) (l : line)
    : load_error + (list suite * option (nat * head)) :=
  let (stack, pending) := state in
  match pending with
  | Some (h_indent, h) =>
      if Nat.ltb h_indent (indent l) then
        if is_except (kind l) then inl (SyntaxError (number l))
        else inr (mkSuite h_indent h (indent l) :: stack, pending_of l)
      else inl (IndentationError (number l))
  | None =>
      match close stack l false with
      | inl e => inl e
      | inr (stack', after_try) =>
          if andb (is_except (kind l)) (negb after_try) then inl (SyntaxError (number l))
          else inr (stack', pending_of l)
      end
  end.

Fixpoint check_from (state : list suite * option (nat * head)) (ls : list line)
    (last : nat) : load_error + unit :=
  match ls with
  | [] =>
      (* the end of the file closes every suite *)
      match snd state with
      | Some _ => inl (IndentationError (S last))
      | None =>
          match close (fst state) (mkLine (S last) 0 simple) false with
          | inl e => inl e
          | inr _ => inr tt
          end
      end
  | l :: rest =>
      match step state l with
      | inl e => inl e
      | inr state' => check_from state' rest (number l)
      end
  end.

Definition check (ls : list line) : load_error + unit := check_from ([], None) ls 0.

(** Importing [main.py]. *)
Definition load : load_error + unit := check main_py.



Section Program.
Context `{Runtime}.

(** The program the file is: a request is answered by the application
    only if the module loads. *)
Definition serve (GEMINI_API_KEY : option string) (w : World) (req : Request)
    : load_error + (outcome Response * list event) :=
  match load with
  | inl e => inl e
  | inr _ => inr (run (app GEMINI_API_KEY w req))
  end.

(** A call of the evaluator in that program. *)
Definition evaluate (GEMINI_API_KEY : option string) (w : World)
    (processo : ProcessoJudicial)
    : load_error + (outcome DecisaoProcesso * list event) :=
  match load with
  | inl e => inl e
  | inr _ => inr (run (verificar_processo_llm_gemini GEMINI_API_KEY w processo))
  end.

End Program.

End Committed.


(** ** Vocabulary of the statements *)






Definition esferas : list string := ["Federal"; "Estadual"; "Trabalhista"].


(** [d[key] = v] *)
Fixpoint dict_set (key : string) (v : json) (d : list (string * json))
    : list (string * json) :=
  match d with
  | [] => [(key, v)]
  | (k, v') :: rest =>
      if String.eqb k key then (key, v) :: rest else (k, v') :: dict_set key v rest
  end.

(** The calls to the reasoning service in a log. *)
Definition is_service_call (ev : event) : bool :=
  match ev with
  | CallGenerateContent _ _ _ _ => true
  | _ => false
  end.

(** The timeout under which a logged call runs; the SDK reads the number
    as milliseconds. *)
Definition call_timeout (ev : event) : option Z :=
  match ev with
  | CallGenerateContent client _ _ _ => timeout (http_options client)
  | CallClient _ options => timeout options
  | CallEvaluator _ => None
  end.

(** Tens of seconds, in milliseconds and in seconds. *)
Definition tens_of_seconds_ms (t : Z) : bool := (10000 <=? t) && (t <? 100000).

Definition tens_of_seconds_s (t : Z) : bool := (10 <=? t) && (t <? 100).




(** ** Concrete runs

    A runtime that reads the JSON texts listed in [documents], and worlds
    that answer every call with one fixed result: the inputs on which the
    program is evaluated below. *)
Module Demo.

Definition quote : string := String (ascii_of_nat 34) EmptyString.

(** A JSON string literal without escapes. *)
Definition q (s : string) : string := quote ++ s ++ quote.

Definition member (k v : string) : string := q k ++ ": " ++ v.

(** Answers of the reasoning service. *)
Definition text_approved : string :=
  "{" ++ member "decision" (q "approved") ++ ", "
      ++ member "rationale" (q "Elegivel conforme POL-1.") ++ ", "
      ++ member "citacoes" ("[" ++ q "POL-1" ++ "]") ++ "}".

Definition json_approved : json :=
  JObject [("decision", JString "approved");
           ("rationale", JString "Elegivel conforme POL-1.");
           ("citacoes", JArray [JString "POL-1"])].

Definition text_bare : string :=
  "{" ++ member "decision" (q "approved") ++ ", "
      ++ member "rationale" (q "") ++ ", "
      ++ member "citacoes" "[]" ++ "}".

Definition json_bare : json :=
  JObject [("decision", JString "approved");
           ("rationale", JString "");
           ("citacoes", JArray [])].

Definition text_uncited : string :=
  "{" ++ member "decision" (q "rejected") ++ ", "
      ++ member "rationale" (q "Esfera trabalhista.") ++ ", "
      ++ member "citacoes" "[]" ++ "}".

Definition json_uncited : json :=
  JObject [("decision", JString "rejected");
           ("rationale", JString "Esfera trabalhista.");
           ("citacoes", JArray [])].

Definition text_emptied : string :=
  "{" ++ member "decision" (q "approved") ++ ", "
      ++ member "rationale" (q "Elegivel conforme POL-1.") ++ ", "
      ++ member "citacoes" "[]" ++ "}".

Definition json_emptied : json :=
  JObject [("decision", JString "approved");
           ("rationale", JString "Elegivel conforme POL-1.");
           ("citacoes", JArray [])].

Definition text_maybe : string :=
  "{" ++ member "decision" (q "maybe") ++ ", "
      ++ member "rationale" (q "Sem regra aplicavel.") ++ ", "
      ++ member "citacoes" ("[" ++ q "POL-99" ++ "]") ++ "}".

Definition json_maybe : json :=
  JObject [("decision", JString "maybe");
           ("rationale", JString "Sem regra aplicavel.");
           ("citacoes", JArray [JString "POL-99"])].

Definition text_no_rationale : string :=
  "{" ++ member "decision" (q "rejected") ++ ", "
      ++ member "citacoes" ("[" ++ q "POL-4" ++ "]") ++ "}".

Definition json_no_rationale : json :=
  JObject [("decision", JString "rejected");
           ("citacoes", JArray [JString "POL-4"])].

(** Request bodies. *)
Definition flags : string :=
  member "documentos_faltando" "false" ++ ", "
    ++ member "transitou_julgado" "true" ++ ", "
    ++ member "substabelecimento_sem_reserva" "false" ++ ", "
    ++ member "obito_autor" "false".

Definition json_flags : list (string * json) :=
  [("documentos_faltando", JBool false);
   ("transitou_julgado", JBool true);
   ("substabelecimento_sem_reserva", JBool false);
   ("obito_autor", JBool false)].

Definition body_ok : string :=
  "{" ++ member "numeroProcesso" (q "0100000-00.2024.4.01.0000") ++ ", "
      ++ member "esfera" (q "Federal") ++ ", "
      ++ member "valorCondenacao" "15000" ++ ", " ++ flags ++ "}".

Definition json_body_ok : json :=
  JObject (("numeroProcesso", JString "0100000-00.2024.4.01.0000")
           :: ("esfera", JString "Federal")
           :: ("valorCondenacao", JInt 15000) :: json_flags).

Definition body_no_valor : string :=
  "{" ++ member "numeroProcesso" (q "0100000-00.2024.4.01.0000") ++ ", "
      ++ member "esfera" (q "Federal") ++ ", " ++ flags ++ "}".

Definition json_body_no_valor : json :=
  JObject (("numeroProcesso", JString "0100000-00.2024.4.01.0000")
           :: ("esfera", JString "Federal") :: json_flags).

Definition body_militar : string :=
  "{" ++ member "numeroProcesso" (q "0100000-00.2024.4.01.0000") ++ ", "
      ++ member "esfera" (q "Militar") ++ ", "
      ++ member "valorCondenacao" "-5" ++ ", " ++ flags ++ "}".

Definition json_body_militar : json :=
  JObject (("numeroProcesso", JString "0100000-00.2024.4.01.0000")
           :: ("esfera", JString "Militar")
           :: ("valorCondenacao", JInt (-5)) :: json_flags).

Definition body_extra : string :=
  "{" ++ member "numeroProcesso" (q "0100000-00.2024.4.01.0000") ++ ", "
      ++ member "esfera" (q "Federal") ++ ", "
      ++ member "valorCondenacao" "15000" ++ ", " ++ flags ++ ", "
      ++ member "observacao" (q "urgente") ++ ", "
      ++ member "prioridade" "3" ++ "}".

Definition json_body_extra : json :=
  JObject (("numeroProcesso", JString "0100000-00.2024.4.01.0000")
           :: ("esfera", JString "Federal")
           :: ("valorCondenacao", JInt 15000)
           :: json_flags
           ++ [("observacao", JString "urgente"); ("prioridade", JInt 3)])%list.

Definition documents : list (string * json) :=
  [(text_approved, json_approved);
   (text_bare, json_bare);
   (text_uncited, json_uncited);
   (text_emptied, json_emptied);
   (text_maybe, json_maybe);
   (text_no_rationale, json_no_rationale);
   (body_ok, json_body_ok);
   (body_no_valor, json_body_no_valor);
   (body_militar, json_body_militar);
   (body_extra, json_body_extra)].

Definition read (t : string) : option json := dict_get t documents.

Definition decimal (z : Z) : string := NilZero.string_of_int (Z.to_int z).

(** The rendering of a record inside the prompt and the text of a
    validation error are opaque to every statement; short stand-ins. *)
Definition runtime : Runtime :=
  {| json_loads := fun t =>
       match read t with
       | Some v => inr v
       | None => inl (0, "Expecting value")
       end;
     from_json := read;
     json_dumps_indent2 := fun _ => "{}";
     str_as_float := fun _ => None;
     str_ValidationError := fun title errs =>
       decimal (Z.of_nat (length errs)) ++ " validation error for " ++ title;
     str_int := decimal |}.

Definition processo : ProcessoJudicial :=
  mkProcessoJudicial "0100000-00.2024.4.01.0000" "Federal" 15000%float
    false true false false.


Definition key : option string := Some "demo-key".

Definition json_type : option (string * string) := Some ("application", "json").

Definition post (p raw : string) : Request := mkRequest "POST" p json_type raw.

Definition decisao_approved : DecisaoProcesso :=
  mkDecisaoProcesso "approved" "Elegivel conforme POL-1." ["POL-1"].

(** The function of the repaired text on the demo runtime. *)
Definition evaluate (k : option string) (w : World) (p : ProcessoJudicial)
    : outcome DecisaoProcesso * list event :=
  run (@verificar_processo_llm_gemini runtime k w p).

End Demo.

(** ** The form client ([src/app_ui.py])

    A Streamlit page: a form whose submission posts the seven fields to the
    API and renders the answer.  The page is modelled from the submission
    on; what it shows is the list of the widgets it emits, in order.  The
    [requests] call and the renderings of Python values are parameters. *)
Module Ui.

(** What [app_ui.py] takes from its libraries. *)
Inductive py_error : Type :=
| JSONDecodeError (doc : string)
| NoAttributeGet (v : json)
| Unhashable (v : json)
| NotIterable (v : json)
| JoinItem (i : Z) (v : json).

Class Runtime : Type := {
  (** [str(e)] of an exception raised while the answer is rendered *)
  str_error : py_error -> string;
  (** [str(v)] of a Python value that is not a string *)
  py_repr : json -> string;
  (** [str(n)] of an integer *)
  str_status : Z -> string
}.

(** What [requests.post] gives: a response, with its status and the result
    of [response.json()], or an exception, of the class
    [requests.exceptions.ConnectionError] or not. *)
Inductive post_result : Type :=
| Responded (status_code : Z) (json_ : py_error + json)
| PostRaised (is_connection_error : bool) (msg : string).

(** The values of the form when it is submitted. *)
Record Form : Type := mkForm {
  numero : string;
  esfera : string;
  valor : float;
  transitou : bool;
  doc_falta : bool;
  substabelecimento : bool;
  obito : bool
}.

(** The options of the select box. *)
Definition esfera_options : list string := ["Federal"; "Estadual"; "Trabalhista"].

Inductive widget : Type :=
| St_info (s : string)
| St_markdown (s : string)
| St_metric (label value : string)
| St_code (body : json)
| St_write (s : string)
| St_json (j : json)
| St_error (s : string)
| St_warning (s : string).

(** [os.getenv("JUSCASH_API_BASE_URL", "http://localhost:8000")] *)
Definition API_URL_BASE (env : option string) : string :=
  match env with
  | Some s => s
  | None => "http://localhost:8000"
  end.

Definition API_VERIFY_URL (env : option string) : string :=
  API_URL_BASE env ++ "/verificar".

(** 2.1: the payload. *)
Definition payload (f : Form) : json :=
  JObject
    [("numeroProcesso", JString (numero f));
     ("esfera", JString (esfera f));
     ("valorCondenacao", JFloat (valor f));
     ("documentos_faltando", JBool (doc_falta f));
     ("transitou_julgado", JBool (transitou f));
     ("substabelecimento_sem_reserva", JBool (substabelecimento f));
     ("obito_autor", JBool (obito f))].

Definition decision_map : list (string * (string * string)) :=
  [("approved", ("✅ APROVADO", "success"));
   ("rejected", ("❌ REJEITADO", "error"));
   ("incomplete", ("⚠️ INCOMPLETO", "warning"))].

Fixpoint lookup {V : Type} (key : string) (m : list (string * V)) : option V :=
  match m with
  | [] => None
  | (k, v) :: rest => if String.eqb k key then Some v else lookup key rest
  end.

(** [decision_map.get(key, ("❓ ERRO", "error"))]: a list or a dict cannot
    be a key; any other value that is not a key of the map gives the
    default. *)
Definition decision_map_get (key : json) : py_error + (string * string) :=
  match key with
  | JString s =>
      inr (match lookup s decision_map with
           | Some choice => choice
           | None => ("❓ ERRO", "error")
           end)
  | JArray _ => inl (Unhashable key)
  | JObject _ => inl (Unhashable key)
  | _ => inr ("❓ ERRO", "error")
  end.

(** [result.get(key, default)]: only a dict has [get]. *)
Definition py_get (result : json) (key : string) (default : json) : py_error + json :=
  match result with
  | JObject d =>
      inr (match dict_get key d with
           | Some v => v
           | None => default
           end)
  | _ => inl (NoAttributeGet result)
  end.

Fixpoint join_strings (sep : string) (l : list string) : string :=
  match l with
  | [] => ""
  | [s] => s
  | s :: rest => s ++ sep ++ join_strings sep rest
  end.

(** The items of a list under [join]: the first that is not a string
    raises. *)
Fixpoint str_items (i : Z) (items : list json) : py_error + list string :=
  match items with
  | [] => inr []
  | JString s :: rest =>
      match str_items (i + 1) rest with
      | inr l => inr (s :: l)
      | inl e => inl e
      end
  | v :: _ => inl (JoinItem i v)
  end.

(** The characters of a text held as UTF-8: a byte of the form 10xxxxxx
    continues the character before it. *)
Definition is_continuation (c : ascii) : bool :=
  let n := nat_of_ascii c in andb (Nat.leb 128 n) (Nat.ltb n 192).

Fixpoint characters (s : string) : list string :=
  match s with
  | EmptyString => []
  | String c rest =>
      match characters rest with
      | String c' more :: others =>
          if is_continuation c' then String c (String c' more) :: others
          else String c EmptyString :: String c' more :: others
      | others => String c EmptyString :: others
      end
  end.

(** [sep.join(v)]: over the items of a list, the characters of a string,
    the keys of a dict. *)
Definition join (sep : string) (v : json) : py_error + string :=
  match v with
  | JArray items =>
      match str_items 0 items with
      | inr l => inr (join_strings sep l)
      | inl e => inl e
      end
  | JString s => inr (join_strings sep (characters s))
  | JObject d => inr (join_strings sep (map fst d))
  | _ => inl (NotIterable v)
  end.

(** Rendering: the widgets shown so far, and a value or the exception that
    stopped the rendering. *)
Definition St (A : Type) : Type := list widget -> (py_error + A) * list widget.

Definition pure {A : Type} (a : A) : St A := fun shown => (inr a, shown).

Definition attempt {A : Type} (r : py_error + A) : St A := fun shown => (r, shown).

Definition show (w : widget) : St unit := fun shown => (inr tt, (shown ++ [w])%list).

Definition and_then {A B : Type} (m : St A) (k : A -> St B) : St B :=
  fun shown =>
    match m shown with
    | (inr a, shown') => k a shown'
    | (inl e, shown') => (inl e, shown')
    end.

Notation "x <~ m ;; k" := (and_then m (fun x => k))
  (at level 61, m at next level, right associativity).
Notation "m ;;> k" := (and_then m (fun _ => k))
  (at level 61, right associativity).

Section Page.
Context `{Runtime}.

(** [f"{v}"] *)
Definition py_str (v : json) : string :=
  match v with
  | JString s => s
  | _ => py_repr v
  end.

Definition msg_validation : string :=
  "Erro de Validação: O JSON enviado não corresponde ao schema esperado. Verifique os tipos de dados.".

(** 2.3: the three branches on the status of the response. *)
Definition render (status_code : Z) (json_ : py_error + json) : St unit :=
  if status_code =? 200 then
    result <~ attempt json_ ;;
    key <~ attempt (py_get result "decision" (JString "error")) ;;
    choice <~ attempt (decision_map_get key) ;;
    show (St_markdown "---") ;;>
    show (St_metric "DECISÃO FINAL" (fst choice)) ;;>
    show (St_markdown "#### Justificativa (Rationale)") ;;>
    motivo <~ attempt (py_get result "rationale" JNull) ;;
    show (St_code motivo) ;;>
    show (St_markdown "#### Regras Aplicadas (Citações)") ;;>
    citadas <~ attempt (py_get result "citacoes" (JArray [JString "Nenhuma"])) ;;
    ids <~ attempt (join ", " citadas) ;;
    show (St_write ("**IDs:** `" ++ ids ++ "`")) ;;>
    show (St_markdown "---") ;;>
    show (St_markdown "##### JSON Retornado pela API") ;;>
    show (St_json result)
  else if status_code =? 422 then
    show (St_error msg_validation) ;;>
    errors <~ attempt json_ ;;
    show (St_json errors)
  else
    answer <~ attempt json_ ;;
    error_detail <~ attempt
      (py_get answer "detail" (JString "Nenhuma mensagem de erro fornecida.")) ;;
    show (St_error ("Erro na API (Código " ++ str_status status_code ++ "): "
                    ++ py_str error_detail)).

(** The block run when the form is submitted: [post] stands for
    [requests.post(url, json=payload, timeout=40)]. *)
Definition on_submit (env : option string) (post : string -> json -> Z -> post_result)
    (f : Form) : list widget :=
  let shown :=
    [St_info ("Aguardando resposta da API LLM em: **" ++ API_VERIFY_URL env ++ "**")] in
  match post (API_VERIFY_URL env) (payload f) 40 with
  | Responded status_code json_ =>
      match render status_code json_ shown with
      | (inr _, shown') => shown'
      | (inl e, shown') =>
          (shown' ++ [St_error ("Ocorreu um erro inesperado: " ++ str_error e)])%list
      end
  | PostRaised true _ =>
      (shown ++
       [St_error ("ERRO DE CONEXÃO: A API FastAPI não está rodando em "
                  ++ API_URL_BASE env ++ ".");
        St_warning
          "Verifique se o seu container Docker/Serviço Cloud está a correr corretamente."])%list
  | PostRaised false msg =>
      (shown ++ [St_error ("Ocorreu um erro inesperado: " ++ msg)])%list
  end.

End Page.

(** The label the page shows for a decision. *)
Definition label (decision_ : string) : string :=
  if String.eqb "approved" decision_ then "✅ APROVADO"
  else if String.eqb "rejected" decision_ then "❌ REJEITADO"
  else if String.eqb "incomplete" decision_ then "⚠️ INCOMPLETO"
  else "❓ ERRO".

(** The record the API reads from the payload of a form. *)
Definition record (f : Form) : ProcessoJudicial :=
  mkProcessoJudicial (numero f) (esfera f) (valor f) (doc_falta f) (transitou f)
    (substabelecimento f) (obito f).

End Ui.

(** The page on concrete values. *)
Module DemoUi.

Definition form : Ui.Form :=
  Ui.mkForm "0100000-00.2024.4.01.0000" "Federal" 15000%float true false false false.

(** The renderings of the page's Python values are opaque to every
    statement; short stand-ins. *)
Definition page : Ui.Runtime :=
  {| Ui.str_error := fun e =>
       match e with
       | Ui.JSONDecodeError _ => "Expecting value: line 1 column 1 (char 0)"
       | Ui.NoAttributeGet _ => "object has no attribute 'get'"
       | Ui.Unhashable _ => "unhashable type"
       | Ui.NotIterable _ => "can only join an iterable"
       | Ui.JoinItem _ _ => "sequence item: expected str instance"
       end;
     Ui.py_repr := fun _ => "<value>";
     Ui.str_status := Demo.decimal |}.

End DemoUi.

(** Responses as google.genai gives them, and a body that holds a number
    too large for a float. *)
Module Cases.







(** A body without [valorCondenacao] whose unknown key holds [1e999],
    which [json.loads] reads as the float infinity. *)
Definition body_huge : string :=
  "{" ++ Demo.member "numeroProcesso" (Demo.q "0100000-00.2024.4.01.0000") ++ ", "
      ++ Demo.member "esfera" (Demo.q "Federal") ++ ", "
      ++ Demo.member "prioridade" "1e999" ++ ", " ++ Demo.flags ++ "}".

Definition json_body_huge : json :=
  JObject (("numeroProcesso", JString "0100000-00.2024.4.01.0000")
           :: ("esfera", JString "Federal")
           :: ("prioridade", JFloat infinity) :: Demo.json_flags).

(** The demo runtime, reading [body_huge] as well. *)
Definition runtime : Runtime :=
  {| json_loads := fun t =>
       if String.eqb t body_huge then inr json_body_huge
       else @json_loads Demo.runtime t;
     from_json := @from_json Demo.runtime;
     json_dumps_indent2 := @json_dumps_indent2 Demo.runtime;
     str_as_float := @str_as_float Demo.runtime;
     str_ValidationError := @str_ValidationError Demo.runtime;
     str_int := @str_int Demo.runtime |}.


End Cases.

(** * Properties *)

Ltac py_unfold :=
  unfold bind, ret, raise, emit, try_except, lift, run in *.

Section Facts.
Context `{Runtime}.


(** Steps 6 to 8 make no call. *)
Lemma check_response_log (response : GenerateContentResponse) (log : list event) :
  snd (check_response response log) = log.
Proof.
  unfold check_response, get_block_reason, get_name.
  destruct (truthy (text response)); [|reflexivity].
  py_unfold.
  destruct (prompt_feedback response) as [fb|]; [|reflexivity].
  destruct (block_reason fb) as [m|]; simpl.
  - destruct (member_value m) as [z|v]; simpl.
    + destruct (z =? 0); simpl; [|reflexivity].
      destruct (DecisaoProcesso_model_validate_json s); reflexivity.
    + reflexivity.
  - reflexivity.
Qed.

Lemma check_response_any_log (response : GenerateContentResponse) (log : list event) :
  check_response response log = (fst (check_response response []), log).
Proof.
  unfold check_response, get_block_reason, get_name.
  destruct (truthy (text response)); [|reflexivity].
  py_unfold.
  destruct (prompt_feedback response) as [fb|]; [|reflexivity].
  destruct (block_reason fb) as [m|]; simpl.
  - destruct (member_value m) as [z|v]; simpl.
    + destruct (z =? 0); simpl; [|reflexivity].
      destruct (DecisaoProcesso_model_validate_json s); reflexivity.
    + reflexivity.
  - reflexivity.
Qed.

Lemma evaluator_no_key (k : option string) (w : World) (p : ProcessoJudicial)
    (log : list event) :
  truthy k = None ->
  verificar_processo_llm_gemini k w p log
  = (Raise (ConnectionError msg_no_key), (log ++ [CallEvaluator p])%list).
Proof.
  intros E. unfold verificar_processo_llm_gemini. py_unfold. rewrite E. reflexivity.
Qed.

Lemma evaluator_client_error (k : option string) (key : string) (e : exception)
    (w : World) (p : ProcessoJudicial) (log : list event) :
  truthy k = Some key ->
  genai_Client w key the_http_options = Some e ->
  verificar_processo_llm_gemini k w p log
  = (Raise (ConnectionError ("Erro ao inicializar o cliente Gemini: " ++ str_exception e)),
     (log ++ [CallEvaluator p; CallClient key the_http_options])%list).
Proof.
  intros E C. unfold verificar_processo_llm_gemini, new_client. py_unfold.
  rewrite E, C. rewrite <- app_assoc. reflexivity.
Qed.

Lemma evaluator_upstream (k : option string) (key : string) (e : exception)
    (w : World) (p : ProcessoJudicial) (log : list event) :
  truthy k = Some key ->
  genai_Client w key the_http_options = None ->
  generate_content w (the_client key) "gemini-2.5-flash" [prompt p] config = inl e ->
  verificar_processo_llm_gemini k w p log
  = (Raise (RuntimeError (msg_call (str_exception e))),
     (log ++ [CallEvaluator p; CallClient key the_http_options; the_call key p])%list).
Proof.
  intros E C G.
  unfold verificar_processo_llm_gemini, new_client, call_and_decode,
    call_generate_content.
  py_unfold. rewrite E, C. unfold the_client in G. rewrite G.
  rewrite <- !app_assoc. reflexivity.
Qed.

Lemma evaluator_response (k : option string) (key : string)
    (response : GenerateContentResponse)
    (w : World) (p : ProcessoJudicial) (log : list event) :
  truthy k = Some key ->
  genai_Client w key the_http_options = None ->
  generate_content w (the_client key) "gemini-2.5-flash" [prompt p] config
    = inr response ->
  verificar_processo_llm_gemini k w p log
  = (wrapped (fst (check_response response [])),
     (log ++ [CallEvaluator p; CallClient key the_http_options; the_call key p])%list).
Proof.
  intros E C G.
  unfold verificar_processo_llm_gemini, new_client, call_and_decode,
    call_generate_content.
  py_unfold. rewrite E, C. unfold the_client in G. rewrite G.
  unfold ret.
  rewrite (check_response_any_log response (_ ++ _)%list).
  rewrite <- !app_assoc. simpl.
  destruct (fst (check_response response [])); reflexivity.
Qed.

End Facts.

(** ** Validation succeeds only on what the schema declares *)

Lemma ap_inr {A B : Type} (f : validated (A -> B)) (x : validated A) (y : B) :
  f <*> x = inr y -> exists g a, f = inr g /\ x = inr a /\ y = g a.
Proof.
  destruct f as [e1|g], x as [e2|a]; simpl; intros E; try discriminate.
  inversion E; subst. exists g, a. auto.
Qed.

Lemma field_inr {T : Type} (name : string) (validate : json -> validated T)
    (d : list (string * json)) (x : T) :
  field name validate d = inr x <->
  exists v, dict_get name d = Some v /\ validate v = inr x.
Proof.
  unfold field. split.
  - destruct (dict_get name d) as [v|]; [|discriminate].
    destruct (validate v) as [errs|x'] eqn:V; [discriminate|].
    intros E; inversion E; subst. exists v. auto.
  - intros [v [G V]]. rewrite G, V. reflexivity.
Qed.


Lemma validate_str_inr (v : json) (s : string) :
  validate_str v = inr s <-> v = JString s.
Proof.
  split.
  - destruct v; simpl; unfold invalid; intros E; try discriminate.
    inversion E; reflexivity.
  - intros ->. reflexivity.
Qed.

Lemma validate_str_items_inr (items : list json) (l : list string) (i : Z) :
  validate_str_items i items = inr l <-> items = map JString l.
Proof.
  revert l i. induction items as [|v rest IH]; intros l i; simpl.
  - split.
    + intros E; inversion E; reflexivity.
    + destruct l; [reflexivity | discriminate].
  - specialize (IH (match l with [] => [] | _ :: l' => l' end) (i + 1)).
    destruct (validate_str v) as [errs|s] eqn:V;
      destruct (validate_str_items (i + 1) rest) as [errs'|tl] eqn:R; simpl.
    + split; [discriminate|]. destruct l; [discriminate|].
      intros E; inversion E; subst. discriminate.
    + split; [discriminate|]. destruct l; [discriminate|].
      intros E; inversion E; subst. discriminate.
    + split; [discriminate|]. destruct l as [|s' l]; [discriminate|].
      intros E; inversion E; subst. destruct IH as [_ IH].
      discriminate (IH eq_refl).
    + apply validate_str_inr in V. subst v. split.
      * intros E; inversion E; subst. destruct IH as [IH _].
        rewrite (IH eq_refl). reflexivity.
      * destruct l as [|s' l]; [discriminate|].
        intros E; inversion E; subst. destruct IH as [_ IH].
        specialize (IH eq_refl). inversion IH; subst. reflexivity.
Qed.

Lemma validate_list_str_inr (v : json) (l : list string) :
  validate_list_str v = inr l <-> v = JArray (map JString l).
Proof.
  split.
  - destruct v; simpl; unfold invalid; intros E; try discriminate.
    apply validate_str_items_inr in E. subst. reflexivity.
  - intros ->. simpl. apply validate_str_items_inr. reflexivity.
Qed.

(** A dict validates as a [DecisaoProcesso] exactly when it binds the three
    fields to two strings and an array of strings. *)
Lemma DecisaoProcesso_fields_inr (d : list (string * json)) (dec : DecisaoProcesso) :
  DecisaoProcesso_fields d = inr dec <->
  dict_get "decision" d = Some (JString (decision dec))
  /\ dict_get "rationale" d = Some (JString (rationale dec))
  /\ dict_get "citacoes" d = Some (JArray (map JString (citacoes dec))).
Proof.
  unfold DecisaoProcesso_fields. split.
  - intros E.
    apply ap_inr in E. destruct E as [g2 [c [E [F3 ->]]]].
    apply ap_inr in E. destruct E as [g1 [r [E [F2 ->]]]].
    apply ap_inr in E. destruct E as [g0 [s [E [F1 ->]]]].
    inversion E; subst g0. simpl.
    apply field_inr in F1, F2, F3.
    destruct F1 as [v1 [G1 V1]], F2 as [v2 [G2 V2]], F3 as [v3 [G3 V3]].
    apply validate_str_inr in V1, V2. apply validate_list_str_inr in V3.
    subst. auto.
  - intros [G1 [G2 G3]]. destruct dec as [s r c]; simpl in *.
    assert (F1 : field "decision" validate_str d = inr s)
      by (apply field_inr; eexists; split; [eassumption | reflexivity]).
    assert (F2 : field "rationale" validate_str d = inr r)
      by (apply field_inr; eexists; split; [eassumption | reflexivity]).
    assert (F3 : field "citacoes" validate_list_str d = inr c)
      by (apply field_inr; eexists; split;
          [eassumption | apply validate_list_str_inr; reflexivity]).
    rewrite F1, F2, F3. reflexivity.
Qed.

Section Decoding.
Context `{Runtime}.

Lemma model_validate_json_inr (t : string) (dec : DecisaoProcesso) :
  DecisaoProcesso_model_validate_json t = inr dec <->
  exists d, from_json t = Some (JObject d) /\ DecisaoProcesso_fields d = inr dec.
Proof.
  unfold DecisaoProcesso_model_validate_json, invalid. split.
  - destruct (from_json t) as [v|]; [|discriminate].
    destruct v; try discriminate.
    destruct (DecisaoProcesso_fields fields) as [errs|dec'] eqn:F; [discriminate|].
    intros E; inversion E; subst. eauto.
  - intros [d [-> ->]]. reflexivity.
Qed.




Lemma check_response_decoded (response : GenerateContentResponse) (t : string)
    (feedback : PromptFeedback) :
  truthy (text response) = Some t ->
  prompt_feedback response = Some feedback ->
  differs_from_zero (block_reason feedback) = false ->
  fst (check_response response [])
  = match DecisaoProcesso_model_validate_json t with
    | inr dec => Return dec
    | inl e => Raise e
    end.
Proof.
  intros T F D.
  unfold check_response, get_block_reason. rewrite T, F. py_unfold.
  rewrite D. destruct (DecisaoProcesso_model_validate_json t); reflexivity.
Qed.

End Decoding.

(** ** The decision evaluator *)

Section EvaluatorProperties.
Context `{Runtime}.






End EvaluatorProperties.

(** ** Validation of the input *)



Lemma dict_get_set_same (key : string) (v : json) (d : list (string * json)) :
  dict_get key (dict_set key v d) = Some v.
Proof.
  induction d as [|[k v'] rest IH]; simpl.
  - rewrite String.eqb_refl. reflexivity.
  - destruct (String.eqb k key) eqn:E; simpl.
    + rewrite String.eqb_refl. reflexivity.
    + rewrite E. exact IH.
Qed.

Lemma dict_get_set_other (key other : string) (v : json) (d : list (string * json)) :
  String.eqb key other = false ->
  dict_get other (dict_set key v d) = dict_get other d.
Proof.
  intros N. induction d as [|[k v'] rest IH]; simpl.
  - rewrite N. reflexivity.
  - destruct (String.eqb k key) eqn:E; simpl.
    + apply String.eqb_eq in E. subst k. rewrite N. reflexivity.
    + rewrite IH. reflexivity.
Qed.

Section HandlerProperties.
Context `{Runtime}.



(** The calls of one invocation of the evaluator. *)
Lemma evaluator_log (k : option string) (w : World) (p : ProcessoJudicial)
    (log : list event) :
  snd (verificar_processo_llm_gemini k w p log)
  = (log ++ CallEvaluator p ::
       match truthy k with
       | None => []
       | Some key =>
           CallClient key the_http_options ::
             match genai_Client w key the_http_options with
             | Some _ => []
             | None => [the_call key p]
             end
       end)%list.
Proof.
  destruct (truthy k) as [key|] eqn:K.
  2:{ rewrite (evaluator_no_key k w p log K). reflexivity. }
  destruct (genai_Client w key the_http_options) as [e|] eqn:C.
  1:{ rewrite (evaluator_client_error k key e w p log K C). reflexivity. }
  destruct (generate_content w (the_client key) "gemini-2.5-flash" [prompt p] config)
    as [e|response] eqn:G.
  - rewrite (evaluator_upstream k key e w p log K C G). reflexivity.
  - rewrite (evaluator_response k key response w p log K C G). reflexivity.
Qed.

(** C8: every invocation of the evaluator makes at most one call to the
    service, and that call runs under the explicit timeout 300.  The SDK
    reads the number as milliseconds; read in either unit, milliseconds
    or seconds, 300 is not tens of seconds, and it is not the 60 seconds
    that the comment above it announces. *)
Theorem service_call_timeout (k : option string) (w : World)
    (p : ProcessoJudicial) :
  (length (filter is_service_call (snd (run (verificar_processo_llm_gemini k w p)))) <= 1)%nat
  /\ (forall ev, In ev (snd (run (verificar_processo_llm_gemini k w p))) ->
        is_service_call ev = true -> call_timeout ev = Some 300)
  /\ tens_of_seconds_ms 300 = false
  /\ tens_of_seconds_s 300 = false
  /\ 300 <> 60 * 1000
  /\ 300 <> 60.
Proof.
  unfold run. rewrite evaluator_log. simpl.
  split; [|split; [|repeat split; discriminate]].
  - destruct (truthy k); simpl; [|lia].
    destruct (genai_Client w _ the_http_options); simpl; lia.
  - intros ev I S.
    destruct I as [<- | I]; [discriminate|].
    destruct (truthy k) as [key|]; [|contradiction].
    destruct I as [<- | I]; [discriminate|].
    destruct (genai_Client w key the_http_options); [contradiction|].
    destruct I as [<- | []]. reflexivity.
Qed.

(** A dict validates as a [ProcessoJudicial] exactly when each of the
    seven fields validates. *)
Lemma ProcessoJudicial_fields_inr (d : list (string * json)) (p : ProcessoJudicial) :
  ProcessoJudicial_fields d = inr p <->
  field "numeroProcesso" validate_str d = inr (numeroProcesso p)
  /\ field "esfera" validate_str d = inr (esfera p)
  /\ field "valorCondenacao" validate_float d = inr (valorCondenacao p)
  /\ field "documentos_faltando" validate_bool d = inr (documentos_faltando p)
  /\ field "transitou_julgado" validate_bool d = inr (transitou_julgado p)
  /\ field "substabelecimento_sem_reserva" validate_bool d
     = inr (substabelecimento_sem_reserva p)
  /\ field "obito_autor" validate_bool d = inr (obito_autor p).
Proof.
  unfold ProcessoJudicial_fields. split.
  - intros E.
    apply ap_inr in E. destruct E as [g7 [x7 [E [F7 ->]]]].
    apply ap_inr in E. destruct E as [g6 [x6 [E [F6 ->]]]].
    apply ap_inr in E. destruct E as [g5 [x5 [E [F5 ->]]]].
    apply ap_inr in E. destruct E as [g4 [x4 [E [F4 ->]]]].
    apply ap_inr in E. destruct E as [g3 [x3 [E [F3 ->]]]].
    apply ap_inr in E. destruct E as [g2 [x2 [E [F2 ->]]]].
    apply ap_inr in E. destruct E as [g1 [x1 [E [F1 ->]]]].
    inversion E; subst g1. simpl. auto 10.
  - intros [F1 [F2 [F3 [F4 [F5 [F6 F7]]]]]].
    rewrite F1, F2, F3, F4, F5, F6, F7. destruct p; reflexivity.
Qed.

Lemma field_after_set (T : Type) (name key : string) (validate : json -> validated T)
    (v : json) (d : list (string * json)) (x : T) :
  String.eqb key name = false ->
  field name validate d = inr x ->
  field name validate (dict_set key v d) = inr x.
Proof.
  intros N F. apply field_inr in F. destruct F as [j [G V]].
  apply field_inr. exists j. split; [|exact V].
  rewrite (dict_get_set_other key name v d N). exact G.
Qed.

Lemma field_of_set (T : Type) (name : string) (validate : json -> validated T)
    (v : json) (d : list (string * json)) (x : T) :
  validate v = inr x ->
  field name validate (dict_set name v d) = inr x.
Proof.
  intros V. apply field_inr. exists v. split; [|exact V].
  apply dict_get_set_same.
Qed.

(** C9 (amended): validation of the input is structural, presence and
    type of the seven fields.  The sphere may be any string and the
    condemnation value any number, a negative one included: a payload
    that validates still validates, into the record with these two
    values, when the two fields are set to an arbitrary string and an
    arbitrary number. *)
Theorem sphere_and_value_are_unconstrained (d : list (string * json))
    (p : ProcessoJudicial) (e : string) (v : float) :
  ProcessoJudicial_validate (JObject d) = inr p ->
  ProcessoJudicial_validate
    (JObject (dict_set "valorCondenacao" (JFloat v)
                (dict_set "esfera" (JString e) d)))
  = inr (mkProcessoJudicial (numeroProcesso p) e v (documentos_faltando p)
           (transitou_julgado p) (substabelecimento_sem_reserva p) (obito_autor p)).
Proof.
  simpl. intros E.
  apply ProcessoJudicial_fields_inr in E.
  destruct E as [F1 [_ [_ [F4 [F5 [F6 F7]]]]]].
  apply ProcessoJudicial_fields_inr. simpl.
  repeat split.
  - apply field_after_set; [reflexivity|]. apply field_after_set; [reflexivity|]. exact F1.
  - apply field_after_set; [reflexivity|]. apply field_of_set. reflexivity.
  - apply field_of_set. reflexivity.
  - apply field_after_set; [reflexivity|]. apply field_after_set; [reflexivity|]. exact F4.
  - apply field_after_set; [reflexivity|]. apply field_after_set; [reflexivity|]. exact F5.
  - apply field_after_set; [reflexivity|]. apply field_after_set; [reflexivity|]. exact F6.
  - apply field_after_set; [reflexivity|]. apply field_after_set; [reflexivity|]. exact F7.
Qed.



(** *** Errors whose echo renders *)














(** C2: no failure of the evaluator is answered.  The clauses of the
    endpoint function are as the specification has them: a
    [ConnectionError] becomes the HTTP error 500 and a [RuntimeError] the
    HTTP error 503, each with the cause in its detail, and an HTTP error
    is answered with its status and its detail.  But the file as
    committed stops at line 130 when it is loaded, so that no request to
    [POST /verificar] is answered, with 500, with 503 or otherwise. *)
Theorem failures_are_not_served :
  (forall (k : option string) (w : World) (ct : option (string * string))
          (raw : string),
      Committed.serve k w (mkRequest "POST" "/verificar" ct raw)
      = inl (Committed.SyntaxError 130))
  /\ (forall cause,
        translate (ConnectionError cause)
        = HTTPException 500 ("Erro de Configuração: " ++ cause))
  /\ (forall cause,
        translate (RuntimeError cause)
        = HTTPException 503 ("Erro no Serviço LLM: " ++ cause))
  /\ (forall code detail,
        respond (Raise (HTTPException code detail))
        = mkResponse' code (JsonBody (JObject [("detail", JString detail)]))).
Proof. repeat split. Qed.

(** C7: [GET /health] is not answered.  The endpoint function and its
    route are as the specification has them, the constant body under
    [GET /health], computed without the key and without the evaluator.
    But the file as committed stops at line 130 when it is loaded, before
    the application of line 151 is built, so that the request is answered
    in no state of the process. *)
Theorem health_is_not_served :
  (forall (k : option string) (w : World) (ct : option (string * string))
          (raw : string),
      Committed.serve k w (mkRequest "GET" "/health" ct raw)
      = inl (Committed.SyntaxError 130))
  /\ first_full routes "GET" "/health" = Some (mkRoute "/health" ["GET"] Health)
  /\ health_check
     = JObject [("status", JString "ok"); ("message", JString "API operacional")].
Proof. repeat split. Qed.

End HandlerProperties.

(** ** Responses that do not fit the output schema *)

Section SchemaViolations.
Context `{Runtime}.




End SchemaViolations.

(** ** The statements at concrete inputs *)










(** C9 as stated fails: a sphere outside the three and a negative value
    pass the validation of the body. *)
Lemma unknown_sphere_and_negative_value_are_accepted :
  @ProcessoJudicial_validate Demo.runtime Demo.json_body_militar
    = inr (mkProcessoJudicial "0100000-00.2024.4.01.0000" "Militar" (-5)%float
             false true false false)
  /\ @read_body Demo.runtime Demo.json_type Demo.body_militar
     = inr (mkProcessoJudicial "0100000-00.2024.4.01.0000" "Militar" (-5)%float
              false true false false)
  /\ str_in "Militar" esferas = false
  /\ PrimFloat.ltb (-5)%float 0%float = true.
Proof. vm_compute. repeat split. Qed.


(** C9 (amended), from the valid demo body to sphere "Militar" and
    value -5. *)
Lemma sphere_and_value_are_unconstrained_witness :
  @ProcessoJudicial_validate Demo.runtime Demo.json_body_ok = inr Demo.processo
  /\ @ProcessoJudicial_validate Demo.runtime
       (JObject (dict_set "valorCondenacao" (JFloat (-5)%float)
                   (dict_set "esfera" (JString "Militar")
                      (("numeroProcesso", JString "0100000-00.2024.4.01.0000")
                       :: ("esfera", JString "Federal")
                       :: ("valorCondenacao", JInt 15000) :: Demo.json_flags))))
     = inr (mkProcessoJudicial "0100000-00.2024.4.01.0000" "Militar" (-5)%float
              false true false false).
Proof.
  assert (V : @ProcessoJudicial_validate Demo.runtime Demo.json_body_ok
              = inr Demo.processo) by (vm_compute; reflexivity).
  split; [exact V|].
  exact (@sphere_and_value_are_unconstrained Demo.runtime _ Demo.processo
           "Militar" (-5)%float V).
Defined.

(** * Further properties of the schemas *)

Section MoreCalls.
Context `{Runtime}.

(** X8: a record serialised by [model_dump] validates back to itself, so
    the record shown to the service in the prompt is the record that was
    validated. *)
Theorem input_model_round_trip (p : ProcessoJudicial) :
  ProcessoJudicial_validate (ProcessoJudicial_model_dump p) = inr p.
Proof. destruct p. reflexivity. Qed.

(** X9: a decision serialised by the response model decodes back to
    itself: a text that reads as the body the API serves for a decision
    validates to that decision. *)
Theorem output_model_round_trip (t : string) (dec : DecisaoProcesso) :
  from_json t = Some (DecisaoProcesso_model_dump dec) ->
  DecisaoProcesso_model_validate_json t = inr dec.
Proof.
  intros J. apply model_validate_json_inr.
  exists [("decision", JString (decision dec));
          ("rationale", JString (rationale dec));
          ("citacoes", JArray (map JString (citacoes dec)))].
  split; [exact J|].
  apply DecisaoProcesso_fields_inr. simpl. auto.
Qed.

End MoreCalls.

(** * Properties of the form client *)

Lemma ui_str_items_strings (l : list string) (i : Z) :
  Ui.str_items i (map JString l) = inr l.
Proof.
  revert i. induction l as [|s l IH]; intros i; simpl; [reflexivity|].
  rewrite IH. reflexivity.
Qed.

Lemma ui_label_of_decision (s : string) :
  exists color, Ui.decision_map_get (JString s) = inr (Ui.label s, color).
Proof.
  unfold Ui.decision_map_get, Ui.decision_map, Ui.label. cbn -[String.eqb].
  destruct (String.eqb "approved" s); [eexists; reflexivity|].
  destruct (String.eqb "rejected" s); [eexists; reflexivity|].
  destruct (String.eqb "incomplete" s); eexists; reflexivity.
Qed.

Section PageAlone.
Context `{Ui.Runtime}.

(** What the page adds to the screen for a decision served with 200. *)
Lemma render_decision (dec : DecisaoProcesso) (shown : list Ui.widget) :
  Ui.render 200 (inr (DecisaoProcesso_model_dump dec)) shown
  = (inr tt,
     (shown ++
      [Ui.St_markdown "---";
       Ui.St_metric "DECISÃO FINAL" (Ui.label (decision dec));
       Ui.St_markdown "#### Justificativa (Rationale)";
       Ui.St_code (JString (rationale dec));
       Ui.St_markdown "#### Regras Aplicadas (Citações)";
       Ui.St_write ("**IDs:** `" ++ Ui.join_strings ", " (citacoes dec) ++ "`");
       Ui.St_markdown "---";
       Ui.St_markdown "##### JSON Retornado pela API";
       Ui.St_json (DecisaoProcesso_model_dump dec)])%list).
Proof.
  destruct (ui_label_of_decision (decision dec)) as [color L].
  unfold Ui.render, Ui.and_then, Ui.attempt, Ui.show.
  cbn -[Ui.decision_map_get Ui.str_items].
  rewrite L. cbn -[Ui.str_items]. rewrite ui_str_items_strings.
  rewrite <- !app_assoc. reflexivity.
Qed.

(** X16: a 200 answer that is a JSON object without the three keys is
    shown with the defaults of the page: the label for an unknown
    decision, no rationale, and the citation "Nenhuma". *)
Theorem page_defaults_for_missing_keys (d : list (string * json))
    (shown : list Ui.widget) :
  dict_get "decision" d = None ->
  dict_get "rationale" d = None ->
  dict_get "citacoes" d = None ->
  Ui.render 200 (inr (JObject d)) shown
  = (inr tt,
     (shown ++
      [Ui.St_markdown "---";
       Ui.St_metric "DECISÃO FINAL" "❓ ERRO";
       Ui.St_markdown "#### Justificativa (Rationale)";
       Ui.St_code JNull;
       Ui.St_markdown "#### Regras Aplicadas (Citações)";
       Ui.St_write "**IDs:** `Nenhuma`";
       Ui.St_markdown "---";
       Ui.St_markdown "##### JSON Retornado pela API";
       Ui.St_json (JObject d)])%list).
Proof.
  intros D R C.
  unfold Ui.render, Ui.and_then, Ui.attempt, Ui.show, Ui.py_get. simpl.
  rewrite D, R, C. simpl.
  rewrite <- !app_assoc. reflexivity.
Qed.

(** X17: the page never shows the default citation for a decision served
    by the API: the identifiers shown are the citations joined by a comma
    and a space, and an empty list is shown as an empty text. *)
Theorem page_shows_citations_joined (dec : DecisaoProcesso) (shown : list Ui.widget) :
  In (Ui.St_write ("**IDs:** `" ++ Ui.join_strings ", " (citacoes dec) ++ "`"))
     (snd (Ui.render 200 (inr (DecisaoProcesso_model_dump dec)) shown))
  /\ (citacoes dec = [] ->
      In (Ui.St_write "**IDs:** ``")
         (snd (Ui.render 200 (inr (DecisaoProcesso_model_dump dec)) shown)))
  /\ fst (Ui.render 200 (inr (DecisaoProcesso_model_dump dec)) shown) = inr tt.
Proof.
  rewrite render_decision. simpl. split; [|split].
  - apply in_or_app. right. simpl. auto 10.
  - intros E. rewrite E. apply in_or_app. right. simpl. auto 10.
  - reflexivity.
Qed.

End PageAlone.

Section PageAndApi.
Context `{Runtime} `{Ui.Runtime}.

(** X12: the payload the page builds from a form validates against the
    input schema of the API, into the record of the form's values, and
    that record serialises back to the payload. *)
Theorem form_payload_validates (f : Ui.Form) :
  ProcessoJudicial_validate (Ui.payload f) = inr (Ui.record f)
  /\ ProcessoJudicial_model_dump (Ui.record f) = Ui.payload f.
Proof. destruct f. split; reflexivity. Qed.

End PageAndApi.

(** ** The further properties at concrete inputs *)

(** X9, on the text of the approved decision. *)
Lemma output_model_round_trip_witness :
  @from_json Demo.runtime Demo.text_approved
    = Some (DecisaoProcesso_model_dump Demo.decisao_approved)
  /\ @DecisaoProcesso_model_validate_json Demo.runtime Demo.text_approved
     = inr Demo.decisao_approved.
Proof.
  assert (J : @from_json Demo.runtime Demo.text_approved
              = Some (DecisaoProcesso_model_dump Demo.decisao_approved))
    by (vm_compute; reflexivity).
  split; [exact J|].
  exact (@output_model_round_trip Demo.runtime Demo.text_approved
           Demo.decisao_approved J).
Defined.

(** X16, on the empty JSON object. *)
Lemma page_defaults_for_missing_keys_witness :
  dict_get "decision" [] = None
  /\ snd (@Ui.render DemoUi.page 200 (inr (JObject [])) [])
     = [Ui.St_markdown "---";
        Ui.St_metric "DECISÃO FINAL" "❓ ERRO";
        Ui.St_markdown "#### Justificativa (Rationale)";
        Ui.St_code JNull;
        Ui.St_markdown "#### Regras Aplicadas (Citações)";
        Ui.St_write "**IDs:** `Nenhuma`";
        Ui.St_markdown "---";
        Ui.St_markdown "##### JSON Retornado pela API";
        Ui.St_json (JObject [])].
Proof.
  split; [reflexivity|].
  exact (f_equal snd (@page_defaults_for_missing_keys DemoUi.page [] []
                        eq_refl eq_refl eq_refl)).
Defined.
